(** * DailyCheckIn: a shallow embedding of [contracts/DailyCheckIn.sol]

    The contract is embedded as state-passing code in a small state-and-error
    monad: a transaction runs the body of one entry point on a working copy of
    the contract (storage, ether balance, trace of external effects); when the
    body fails the working copy is dropped, as the EVM does on a revert.

    Conventions of the model.
    - [uint256] and [address] are [Z]; Solidity 0.8 checked arithmetic is
      written out ([checked_add], [checked_sub] fail with [Panic 0x11]).
    - A Solidity mapping is a [gmap] read through a default ([user_of]).
    - [msg.value] is carried only by the payable entry points: value sent to a
      non-payable function is refused by the dispatcher before the body runs.
    - The low-level [call{value: ..}("")] is one atomic transfer which the
      recipient accepts or refuses ([recipient_accepts]); calls the recipient
      makes on its own are transactions of their own.
    - The FHEVM library [FHE.sol] is not part of the repository: it is an
      interface ([FHE.runtime]) with the laws of encrypted 32-bit addition,
      and one executable instance ([FHE.mock]) that keeps the cleartexts. *)

From Stdlib Require Import ZArith String List Lia Bool.
From stdpp Require Import base gmap.
Import ListNotations.
Open Scope Z_scope.

(** ** The FHEVM library, as the contract uses it *)

Module FHE.

(** [euint32] is a handle to an encrypted 32-bit integer.  [uninitialized]
    is the zero handle a fresh storage slot holds; [FHE.add] treats it as
    an encryption of 0, which is what [cleartext] records. *)
Class runtime := {
  euint32 : Type;
  uninitialized : euint32;
  asEuint32 : Z -> euint32;
  add : euint32 -> euint32 -> euint32;
  cleartext : euint32 -> Z;
  cleartext_uninitialized : cleartext uninitialized = 0;
  cleartext_asEuint32 :
    forall v, 0 <= v < 2 ^ 32 -> cleartext (asEuint32 v) = v;
  cleartext_add :
    forall a b, cleartext (add a b) = (cleartext a + cleartext b) mod 2 ^ 32
}.

(** The executable instance: a handle is [None] (never written) or the
    32-bit cleartext it stands for. *)
Definition mock_cleartext (h : option Z) : Z :=
  match h with Some v => v | None => 0 end.

#[export] Instance mock : runtime := {|
  euint32 := option Z;
  uninitialized := None;
  asEuint32 := fun v => Some (v mod 2 ^ 32);
  add := fun a b => Some ((mock_cleartext a + mock_cleartext b) mod 2 ^ 32);
  cleartext := mock_cleartext;
  cleartext_uninitialized := eq_refl;
  cleartext_asEuint32 := fun v Hv => Z.mod_small v (2 ^ 32) Hv;
  cleartext_add := fun a b => eq_refl
|}.

End FHE.

(** ** EVM values and the transaction monad *)

Definition address := Z.

Definition MAX_UINT256 : Z := 2 ^ 256 - 1.

Definition is_uint256 (x : Z) : Prop := 0 <= x <= MAX_UINT256.

Inductive failure :=
| Revert (reason : string)
| Panic (code : Z).

Inductive result (A : Type) :=
| Ok (a : A)
| Fail (f : failure).

Arguments Ok {A} a.
Arguments Fail {A} f.

(** What a transaction sees of its environment. *)
Record env := {
  msg_sender : address;
  block_timestamp : Z;
  recipient_accepts : bool
}.

Definition wf_env (e : env) : Prop :=
  0 <= msg_sender e /\ 0 <= block_timestamp e < 2 ^ 64.

Section Contract.

Context {fhevm : FHE.runtime}.

(** *** State variables *)

Record UserCheckIn := {
  encryptedDays : FHE.euint32;
  lastCheckInTime : Z;
  lastClaimedDay : Z
}.

Record storage := {
  owner : address;
  userCheckIns : gmap address UserCheckIn;
  rewardPool : Z
}.

Definition REWARD_AMOUNT : Z := 100000000000000.
Definition CHECK_IN_INTERVAL : Z := 24 * 60 * 60.
Definition REWARD_INTERVAL : Z := 2.

Definition zero_user : UserCheckIn :=
  {| encryptedDays := FHE.uninitialized;
     lastCheckInTime := 0;
     lastClaimedDay := 0 |}.

(** [userCheckIns[a]]: a key never written reads as the zero struct. *)
Definition user_of (s : storage) (a : address) : UserCheckIn :=
  default zero_user (userCheckIns s !! a).

Definition with_encryptedDays (h : FHE.euint32) (u : UserCheckIn) :=
  {| encryptedDays := h;
     lastCheckInTime := lastCheckInTime u;
     lastClaimedDay := lastClaimedDay u |}.

Definition with_lastCheckInTime (t : Z) (u : UserCheckIn) :=
  {| encryptedDays := encryptedDays u;
     lastCheckInTime := t;
     lastClaimedDay := lastClaimedDay u |}.

Definition with_lastClaimedDay (d : Z) (u : UserCheckIn) :=
  {| encryptedDays := encryptedDays u;
     lastCheckInTime := lastCheckInTime u;
     lastClaimedDay := d |}.

Definition set_user (a : address) (u : UserCheckIn) (s : storage) :=
  {| owner := owner s;
     userCheckIns := <[a := u]> (userCheckIns s);
     rewardPool := rewardPool s |}.

Definition set_owner (a : address) (s : storage) :=
  {| owner := a;
     userCheckIns := userCheckIns s;
     rewardPool := rewardPool s |}.

Definition set_rewardPool (p : Z) (s : storage) :=
  {| owner := owner s;
     userCheckIns := userCheckIns s;
     rewardPool := p |}.

(** *** Events and other external effects *)

Inductive event :=
| CheckedIn (user : address) (timestamp : Z)
| RewardClaimed (user : address) (day amount : Z)
| CheckInReset (user : address) (timestamp : Z)
| RewardPoolDeposited (from : address) (amount : Z)
| RewardPoolWithdrawn (to : address) (amount : Z).

Inductive grantee :=
| ThisContract
| Account (a : address).

Inductive effect :=
| Emit (ev : event)
| Allow (h : FHE.euint32) (g : grantee)
| Transfer (to : address) (amount : Z).

(** *** The monad *)

Record machine := {
  m_storage : storage;
  m_balance : Z;
  m_trace : list effect
}.

Definition M (A : Type) : Type := machine -> result (A * machine).

Definition ret {A} (a : A) : M A := fun m => Ok (a, m).

Definition bind {A B} (c : M A) (k : A -> M B) : M B :=
  fun m =>
    match c m with
    | Ok (a, m') => k a m'
    | Fail f => Fail f
    end.

Definition fail {A} (f : failure) : M A := fun _ => Fail f.

Definition require (cond : bool) (reason : string) : M unit :=
  if cond then ret tt else fail (Revert reason).

Definition checked_add (a b : Z) : M Z :=
  if a + b <=? MAX_UINT256 then ret (a + b) else fail (Panic 17).

Definition checked_sub (a b : Z) : M Z :=
  if b <=? a then ret (a - b) else fail (Panic 17).

Definition sload : M storage := fun m => Ok (m_storage m, m).

Definition sstore (f : storage -> storage) : M unit :=
  fun m =>
    Ok (tt, {| m_storage := f (m_storage m);
               m_balance := m_balance m;
               m_trace := m_trace m |}).

Definition self_balance : M Z := fun m => Ok (m_balance m, m).

Definition perform (x : effect) : M unit :=
  fun m =>
    Ok (tt, {| m_storage := m_storage m;
               m_balance := m_balance m;
               m_trace := m_trace m ++ [x] |}).

Definition emit (ev : event) : M unit := perform (Emit ev).

(** [payable(to).call{value: amount}("")]: fails (returns [false]) when the
    balance is too small or the recipient refuses; otherwise the ether
    leaves the contract. *)
Definition call_value (e : env) (to : address) (amount : Z) : M bool :=
  fun m =>
    if (amount <=? m_balance m) && recipient_accepts e then
      Ok (true, {| m_storage := m_storage m;
                   m_balance := m_balance m - amount;
                   m_trace := m_trace m ++ [Transfer to amount] |})
    else Ok (false, m).

End Contract.

Notation "'let!' x ':=' c 'in' k" := (bind c (fun x => k))
  (at level 10, x name, c at level 100, k at level 200).
Notation "c '>>' k" := (bind c (fun _ => k))
  (at level 100, k at level 200, right associativity).

(** ** The contract *)

Section DailyCheckIn.

Context {fhevm : FHE.runtime}.

(** [FHE.allowThis] and [FHE.allow] write to the access-control list of
    the FHEVM, outside the contract's storage. *)
Definition allowThis (h : FHE.euint32) : M unit :=
  perform (Allow h ThisContract).

Definition allow (h : FHE.euint32) (a : address) : M unit :=
  perform (Allow h (Account a)).

(** Reads and writes through the storage pointer
    [UserCheckIn storage userCheckIn = userCheckIns[a]]. *)
Definition field {A} (a : address) (proj : UserCheckIn -> A) : M A :=
  let! s := sload in ret (proj (user_of s a)).

Definition assign (a : address) (f : UserCheckIn -> UserCheckIn) : M unit :=
  sstore (fun s => set_user a (f (user_of s a)) s).

Definition onlyOwner (e : env) : M unit :=
  let! s := sload in
  require (msg_sender e =? owner s) "Only owner can call this".

(** [constructor() payable].  The constructor of the base contract
    [ZamaEthereumConfig] only tells the FHE library where the coprocessor
    is; it touches none of the state below. *)
Definition constructor (e : env) (msg_value : Z) : M unit :=
  sstore (set_owner (msg_sender e)) >>
  sstore (set_rewardPool msg_value) >>
  emit (RewardPoolDeposited (msg_sender e) msg_value).

Definition checkIn (e : env) : M unit :=
  let userCheckIn := msg_sender e in
  let! last := field userCheckIn lastCheckInTime in
  let! next := checked_add last CHECK_IN_INTERVAL in
  require (next <=? block_timestamp e) "Already checked in today" >>
  let! last := field userCheckIn lastCheckInTime in
  let! limit := checked_add last (CHECK_IN_INTERVAL * 2) in
  (if limit <? block_timestamp e then
     assign userCheckIn (with_encryptedDays (FHE.asEuint32 0)) >>
     assign userCheckIn (with_lastClaimedDay 0) >>
     emit (CheckInReset (msg_sender e) (block_timestamp e))
   else ret tt) >>
  let one := FHE.asEuint32 1 in
  let! days := field userCheckIn encryptedDays in
  assign userCheckIn (with_encryptedDays (FHE.add days one)) >>
  assign userCheckIn (with_lastCheckInTime (block_timestamp e)) >>
  let! days := field userCheckIn encryptedDays in
  allowThis days >>
  let! days := field userCheckIn encryptedDays in
  allow days (msg_sender e) >>
  emit (CheckedIn (msg_sender e) (block_timestamp e)).

Definition resetCheckIn (e : env) : M unit :=
  let userCheckIn := msg_sender e in
  assign userCheckIn (with_encryptedDays (FHE.asEuint32 0)) >>
  assign userCheckIn (with_lastCheckInTime 0) >>
  assign userCheckIn (with_lastClaimedDay 0) >>
  emit (CheckInReset (msg_sender e) (block_timestamp e)).

Definition claimReward (e : env) (currentDay : Z) : M unit :=
  let userCheckIn := msg_sender e in
  require (currentDay mod REWARD_INTERVAL =? 1) "Not eligible for reward" >>
  let! claimed := field userCheckIn lastClaimedDay in
  require (claimed <? currentDay)
          "Reward already claimed for this milestone" >>
  let! s := sload in
  require (REWARD_AMOUNT <=? rewardPool s) "Insufficient reward pool" >>
  assign userCheckIn (with_lastClaimedDay currentDay) >>
  let! s := sload in
  let! pool := checked_sub (rewardPool s) REWARD_AMOUNT in
  sstore (set_rewardPool pool) >>
  let! success := call_value e (msg_sender e) REWARD_AMOUNT in
  require success "Reward transfer failed" >>
  emit (RewardClaimed (msg_sender e) currentDay REWARD_AMOUNT).

(** *** Query functions *)

Definition getUserEncryptedDays (user : address) : M FHE.euint32 :=
  field user encryptedDays.

Definition getUserLastCheckInTime (user : address) : M Z :=
  field user lastCheckInTime.

Definition getUserLastClaimedDay (user : address) : M Z :=
  field user lastClaimedDay.

Definition canCheckIn (e : env) (user : address) : M bool :=
  let! last := field user lastCheckInTime in
  let! next := checked_add last CHECK_IN_INTERVAL in
  ret (next <=? block_timestamp e).

Definition getNextCheckInTime (e : env) (user : address) : M Z :=
  let! last := field user lastCheckInTime in
  if last =? 0 then ret (block_timestamp e)
  else
    let! last := field user lastCheckInTime in
    checked_add last CHECK_IN_INTERVAL.

Definition getContractBalance : M Z := self_balance.

(** The getters Solidity generates for [public] state variables. *)
Definition get_owner : M address :=
  let! s := sload in ret (owner s).

Definition get_userCheckIns (user : address) : M UserCheckIn :=
  field user (fun u => u).

Definition get_rewardPool : M Z :=
  let! s := sload in ret (rewardPool s).

(** *** Admin functions *)

Definition depositRewardPool (e : env) (msg_value : Z) : M unit :=
  require (0 <? msg_value) "Deposit amount must be greater than 0" >>
  let! s := sload in
  let! pool := checked_add (rewardPool s) msg_value in
  sstore (set_rewardPool pool) >>
  emit (RewardPoolDeposited (msg_sender e) msg_value).

Definition withdrawRewardPool (e : env) (amount : Z) : M unit :=
  onlyOwner e >>
  let! s := sload in
  require (amount <=? rewardPool s) "Insufficient balance in reward pool" >>
  let! s := sload in
  let! pool := checked_sub (rewardPool s) amount in
  sstore (set_rewardPool pool) >>
  let! s := sload in
  let! success := call_value e (owner s) amount in
  require success "Withdrawal failed" >>
  let! s := sload in
  emit (RewardPoolWithdrawn (owner s) amount).

Definition emergencyWithdraw (e : env) : M unit :=
  onlyOwner e >>
  let! balance := self_balance in
  sstore (set_rewardPool 0) >>
  let! s := sload in
  let! success := call_value e (owner s) balance in
  require success "Emergency withdrawal failed" >>
  let! s := sload in
  emit (RewardPoolWithdrawn (owner s) balance).

Definition transferOwnership (e : env) (newOwner : address) : M unit :=
  onlyOwner e >>
  require (negb (newOwner =? 0)) "Invalid new owner address" >>
  sstore (set_owner newOwner).

(** [receive() external payable] and [fallback() external payable] *)
Definition receive (e : env) (msg_value : Z) : M unit :=
  let! s := sload in
  let! pool := checked_add (rewardPool s) msg_value in
  sstore (set_rewardPool pool) >>
  emit (RewardPoolDeposited (msg_sender e) msg_value).

Definition fallback (e : env) (msg_value : Z) : M unit :=
  let! s := sload in
  let! pool := checked_add (rewardPool s) msg_value in
  sstore (set_rewardPool pool) >>
  emit (RewardPoolDeposited (msg_sender e) msg_value).

End DailyCheckIn.

(** ** Transactions *)

Section Transactions.

Context {fhevm : FHE.runtime}.

(** The contract between two transactions: its storage and its ether. *)
Record contract := {
  c_storage : storage;
  c_balance : Z
}.

Inductive query :=
| GetUserEncryptedDays (user : address)
| GetUserLastCheckInTime (user : address)
| GetUserLastClaimedDay (user : address)
| CanCheckIn (user : address)
| GetNextCheckInTime (user : address)
| GetContractBalance
| GetOwner
| GetUserCheckIns (user : address)
| GetRewardPool.

(** Everything the deployed contract answers to.  The first seven are the
    state-changing functions of the ABI; [Receive] is a plain transfer of
    ether, [Fallback] a call no function selector matches. *)
Inductive call :=
| CheckIn
| ResetCheckIn
| ClaimReward (currentDay : Z)
| DepositRewardPool (msg_value : Z)
| WithdrawRewardPool (amount : Z)
| EmergencyWithdraw
| TransferOwnership (newOwner : address)
| Receive (msg_value : Z)
| Fallback (msg_value : Z)
| View (q : query).

Definition msg_value (c : call) : Z :=
  match c with
  | DepositRewardPool v | Receive v | Fallback v => v
  | _ => 0
  end.

Definition ignore {A} (c : M A) : M unit := let! _ := c in ret tt.

Definition run_query (e : env) (q : query) : M unit :=
  match q with
  | GetUserEncryptedDays user => ignore (getUserEncryptedDays user)
  | GetUserLastCheckInTime user => ignore (getUserLastCheckInTime user)
  | GetUserLastClaimedDay user => ignore (getUserLastClaimedDay user)
  | CanCheckIn user => ignore (canCheckIn e user)
  | GetNextCheckInTime user => ignore (getNextCheckInTime e user)
  | GetContractBalance => ignore getContractBalance
  | GetOwner => ignore get_owner
  | GetUserCheckIns user => ignore (get_userCheckIns user)
  | GetRewardPool => ignore get_rewardPool
  end.

Definition body (e : env) (c : call) : M unit :=
  match c with
  | CheckIn => checkIn e
  | ResetCheckIn => resetCheckIn e
  | ClaimReward currentDay => claimReward e currentDay
  | DepositRewardPool v => depositRewardPool e v
  | WithdrawRewardPool amount => withdrawRewardPool e amount
  | EmergencyWithdraw => emergencyWithdraw e
  | TransferOwnership newOwner => transferOwnership e newOwner
  | Receive v => receive e v
  | Fallback v => fallback e v
  | View q => run_query e q
  end.

Inductive outcome :=
| Success (after : contract) (trace : list effect)
| Reverted (f : failure).

(** One transaction: the value sent is credited first, the body runs on
    the working copy, and only a body that returns is committed. *)
Definition begin (c : call) (w : contract) : machine :=
  {| m_storage := c_storage w;
     m_balance := c_balance w + msg_value c;
     m_trace := [] |}.

Definition transact (e : env) (c : call) (w : contract) : outcome :=
  match body e c (begin c w) with
  | Ok (_, m) =>
      Success {| c_storage := m_storage m; c_balance := m_balance m |}
              (m_trace m)
  | Fail f => Reverted f
  end.

Definition state_after (e : env) (c : call) (w : contract) : contract :=
  match transact e c w with
  | Success w' _ => w'
  | Reverted _ => w
  end.

(** A view function called from outside: its result, no change of state. *)
Definition view {A} (q : M A) (w : contract) : result A :=
  match q {| m_storage := c_storage w;
             m_balance := c_balance w;
             m_trace := [] |} with
  | Ok (a, _) => Ok a
  | Fail f => Fail f
  end.

Definition succeeds (o : outcome) : Prop :=
  match o with Success _ _ => True | Reverted _ => False end.

(** Deployment: the constructor runs on empty storage, at an address that
    may already hold ether. *)
Definition empty_storage : storage :=
  {| owner := 0; userCheckIns := ∅; rewardPool := 0 |}.

Definition deploy (e : env) (value held : Z) : outcome :=
  match constructor e value
          {| m_storage := empty_storage;
             m_balance := held + value;
             m_trace := [] |} with
  | Ok (_, m) =>
      Success {| c_storage := m_storage m; c_balance := m_balance m |}
              (m_trace m)
  | Fail f => Reverted f
  end.

(** The arguments of a call as the ABI delivers them. *)
Definition wf_call (c : call) : Prop :=
  match c with
  | ClaimReward d => is_uint256 d
  | DepositRewardPool v | Receive v | Fallback v => is_uint256 v
  | WithdrawRewardPool a => is_uint256 a
  | TransferOwnership a => 0 <= a
  | _ => True
  end.

(** The states of a deployed contract: deployment, then transactions,
    and ether forced on the contract without running its code. *)
Inductive reachable : contract -> Prop :=
| reach_deploy e value held w tr :
    wf_env e -> is_uint256 value -> 0 <= held ->
    deploy e value held = Success w tr ->
    reachable w
| reach_transact e c w :
    reachable w -> wf_env e -> wf_call c ->
    reachable (state_after e c w)
| reach_forced w v :
    reachable w -> 0 <= v ->
    reachable {| c_storage := c_storage w; c_balance := c_balance w + v |}.

(** The seven state-changing functions of the ABI. *)
Definition is_entry_point (c : call) : bool :=
  match c with
  | CheckIn | ResetCheckIn | ClaimReward _ | DepositRewardPool _
  | WithdrawRewardPool _ | EmergencyWithdraw | TransferOwnership _ => true
  | Receive _ | Fallback _ | View _ => false
  end.

(** *** Vocabulary of the properties *)

(** The calls guarded by [onlyOwner]. *)
Definition is_admin (c : call) : bool :=
  match c with
  | WithdrawRewardPool _ | EmergencyWithdraw | TransferOwnership _ => true
  | _ => false
  end.

(** The reasons of the contract's [require] clauses. *)
Definition require_messages : list string :=
  [ "Only owner can call this";
    "Already checked in today";
    "Not eligible for reward";
    "Reward already claimed for this milestone";
    "Insufficient reward pool";
    "Reward transfer failed";
    "Deposit amount must be greater than 0";
    "Insufficient balance in reward pool";
    "Withdrawal failed";
    "Emergency withdrawal failed";
    "Invalid new owner address" ]%string.

(** What a caller observes of a call: whether it succeeded, with which
    payments and events, or how it failed. *)
Definition behaviour (o : outcome) : result (list effect) :=
  match o with
  | Success _ tr => Ok tr
  | Reverted f => Fail f
  end.

(** The same contract with another handle in [userCheckIns[a].encryptedDays]. *)
Definition replace_encryptedDays (a : address) (h : FHE.euint32)
    (w : contract) : contract :=
  {| c_storage :=
       set_user a (with_encryptedDays h (user_of (c_storage w) a))
                (c_storage w);
     c_balance := c_balance w |}.

(** Ether the contract holds beyond what [rewardPool] accounts for. *)
Definition surplus (w : contract) : Z :=
  c_balance w - rewardPool (c_storage w).

(** A transaction sent by [a] in a block stamped [t], from an account that
    accepts ether. *)
Definition sent_by (a : address) (t : Z) : env :=
  {| msg_sender := a; block_timestamp := t; recipient_accepts := true |}.

(** A sequence of transactions, each on the state the previous one left;
    [None] as soon as one of them reverts. *)
Fixpoint transact_all (txs : list (env * call)) (w : contract)
    : option contract :=
  match txs with
  | [] => Some w
  | (e, c) :: rest =>
      match transact e c w with
      | Success w' _ => transact_all rest w'
      | Reverted _ => None
      end
  end.

(** [a] calling [checkIn] in the blocks stamped [times]. *)
Definition checkIns (a : address) (times : list Z) : list (env * call) :=
  map (fun t => (sent_by a t, CheckIn)) times.

(** Block times that keep a streak alive: each one at least 24 and at
    most 48 hours after the one before. *)
Fixpoint keeps_streak (last : Z) (times : list Z) : Prop :=
  match times with
  | [] => True
  | t :: rest =>
      last + CHECK_IN_INTERVAL <= t <= last + CHECK_IN_INTERVAL * 2
      /\ keeps_streak t rest
  end.

(** [a] calling [claimReward] for [n] milestones in a row: [day],
    [day + 2], ... *)
Fixpoint claims (a : address) (t : Z) (day : Z) (n : nat)
    : list (env * call) :=
  match n with
  | O => []
  | S k => (sent_by a t, ClaimReward day) :: claims a t (day + 2) k
  end.


(** Every stored check-in time is 0 or the timestamp of a past block. *)
Definition times_bounded (w : contract) : Prop :=
  forall a, 0 <= lastCheckInTime (user_of (c_storage w) a) < 2 ^ 64.

(** The pool never promises more ether than the contract holds. *)
Definition solvent (w : contract) : Prop :=
  rewardPool (c_storage w) <= c_balance w.

End Transactions.

(** ** Concrete states, on the cleartext FHEVM *)

Section States.

#[local] Existing Instance FHE.mock.

(** A deployment by account 1 with one ether, on 14 November 2023. *)
Definition deployer : env :=
  {| msg_sender := 1;
     block_timestamp := 1700000000;
     recipient_accepts := true |}.

Definition one_ether : Z := 1000000000000000000.

Definition deployed : contract :=
  {| c_storage :=
       {| owner := 1; userCheckIns := ∅; rewardPool := one_ether |};
     c_balance := one_ether |}.

(** Account 7, a number of seconds after the deployment. *)
Definition alice (seconds_later : Z) : env :=
  {| msg_sender := 7;
     block_timestamp := 1700000000 + seconds_later;
     recipient_accepts := true |}.

Definition checked_in : contract := state_after (alice 0) CheckIn deployed.

(** Two check-ins on consecutive days. *)
Definition streak2 : contract := state_after (alice 86400) CheckIn checked_in.

(** One check-in, and the reward for day 1 claimed right after it. *)
Definition claimed1 : contract :=
  state_after (alice 100) (ClaimReward 1) checked_in.

(** Account 7 again, as a contract that refuses ether. *)
Definition refusing : env :=
  {| msg_sender := 7;
     block_timestamp := 1700000100;
     recipient_accepts := false |}.

End States.

(** ** Reasoning about runs *)

#[local] Arguments user_of : simpl never.
#[local] Arguments set_user : simpl never.
#[local] Arguments Z.leb : simpl never.
#[local] Arguments Z.ltb : simpl never.
#[local] Arguments Z.eqb : simpl never.
#[local] Arguments Z.add : simpl never.
#[local] Arguments Z.sub : simpl never.
#[local] Arguments Z.mul : simpl never.
#[local] Arguments Z.modulo : simpl never.
#[local] Arguments Z.pow : simpl never.

Ltac unfold_run :=
  unfold state_after, transact, deploy, begin, body, run_query, ignore,
    constructor, checkIn, resetCheckIn, claimReward, depositRewardPool,
    withdrawRewardPool, emergencyWithdraw, transferOwnership, receive,
    fallback, getUserEncryptedDays, getUserLastCheckInTime,
    getUserLastClaimedDay, canCheckIn, getNextCheckInTime,
    getContractBalance, get_owner, get_userCheckIns, get_rewardPool,
    onlyOwner, allowThis, allow, field, assign, emit,
    perform, call_value, self_balance, sstore, sload, checked_add,
    checked_sub, require, fail, bind, ret in *.

Ltac simpl_run :=
  cbn -[MAX_UINT256 CHECK_IN_INTERVAL REWARD_AMOUNT REWARD_INTERVAL] in *.

(** Symbolic execution of an entry point: unfold the monad, then follow
    every branch. *)
Ltac run := unfold_run; simpl_run.

Ltac split_if :=
  match goal with
  | |- context [if ?b then _ else _] => destruct b eqn:?
  | H : context [if ?b then _ else _] |- _ => destruct b eqn:?
  end.

Ltac reflect_Z :=
  repeat match goal with
    | H : (_ && _) = true |- _ => apply andb_true_iff in H; destruct H
    | H : (_ && _) = false |- _ => apply andb_false_iff in H
    | H : negb _ = true |- _ => apply negb_true_iff in H
    | H : negb _ = false |- _ => apply negb_false_iff in H
    | H : (_ <=? _) = true |- _ => apply Z.leb_le in H
    | H : (_ <=? _) = false |- _ => apply Z.leb_gt in H
    | H : (_ <? _) = true |- _ => apply Z.ltb_lt in H
    | H : (_ <? _) = false |- _ => apply Z.ltb_ge in H
    | H : (_ =? _) = true |- _ => apply Z.eqb_eq in H
    | H : (_ =? _) = false |- _ => apply Z.eqb_neq in H
    end.

Ltac constants :=
  unfold is_uint256, MAX_UINT256, CHECK_IN_INTERVAL, REWARD_AMOUNT,
    REWARD_INTERVAL in *.

Section Storage.

Context {fhevm : FHE.runtime}.

Lemma user_of_set_user_eq a u s : user_of (set_user a u s) a = u.
Proof. unfold user_of, set_user; simpl. by rewrite lookup_insert_eq. Qed.

Lemma user_of_set_user_ne a b u s :
  a <> b -> user_of (set_user a u s) b = user_of s b.
Proof.
  intros Hab. unfold user_of, set_user; simpl.
  by rewrite lookup_insert_ne.
Qed.

Lemma user_of_set_rewardPool a p s :
  user_of (set_rewardPool p s) a = user_of s a.
Proof. reflexivity. Qed.

Lemma user_of_set_owner a o s : user_of (set_owner o s) a = user_of s a.
Proof. reflexivity. Qed.

Lemma user_of_empty a : user_of empty_storage a = zero_user.
Proof. unfold user_of, empty_storage; simpl. by rewrite lookup_empty. Qed.

Lemma owner_set_user a u s : owner (set_user a u s) = owner s.
Proof. reflexivity. Qed.

Lemma rewardPool_set_user a u s : rewardPool (set_user a u s) = rewardPool s.
Proof. reflexivity. Qed.

Lemma set_user_twice a u v s : set_user a u (set_user a v s) = set_user a u s.
Proof. unfold set_user; simpl. by rewrite insert_insert_eq. Qed.

End Storage.

Ltac users :=
  repeat first
    [ rewrite user_of_set_user_eq in *
    | rewrite user_of_set_user_ne in * by congruence
    | rewrite user_of_set_rewardPool in *
    | rewrite user_of_set_owner in *
    | rewrite owner_set_user in *
    | rewrite rewardPool_set_user in * ];
  simpl_run.

(** Follow every branch of a run, normalising the storage reads as the
    conditions are decided. *)
Ltac branches := users; repeat (split_if; simpl_run; users); reflect_Z.

Section Invariants.

Context {fhevm : FHE.runtime}.

(** No call stores a time other than 0 or the block timestamp. *)
Lemma transact_times e c w :
  wf_env e -> times_bounded w -> times_bounded (state_after e c w).
Proof.
  intros [_ Hts] Hw a. pose proof (Hw a) as Ha.
  pose proof (Hw (msg_sender e)) as Hs.
  destruct (decide (msg_sender e = a)) as [<-|Hne];
    destruct c as [| | | | | | | | |[]]; run; branches; users;
    try exact Ha; try exact Hs; try lia.
Qed.

Lemma reachable_times w : reachable w -> times_bounded w.
Proof.
  induction 1 as [e value held w tr He Hv Hh Hd|e c w Hw IH He Hc|w v Hw IH Hv].
  - run. inversion Hd; subst; clear Hd. intros a; simpl.
    rewrite user_of_set_rewardPool, user_of_set_owner, user_of_empty.
    simpl. lia.
  - by apply transact_times.
  - exact IH.
Qed.

(** Every call moves [rewardPool] and the balance by the same amount, or
    the pool down to 0. *)
Lemma transact_solvent e c w :
  solvent w -> 0 <= msg_value c -> solvent (state_after e c w).
Proof.
  unfold solvent. intros Hw Hv.
  destruct c as [| | | | | | | | |[]]; run; branches; users; lia.
Qed.

Lemma wf_call_value c : wf_call c -> 0 <= msg_value c.
Proof. destruct c; simpl; constants; lia. Qed.

Lemma reachable_solvent w : reachable w -> solvent w.
Proof.
  induction 1 as [e value held w tr He Hv Hh Hd|e c w Hw IH He Hc|w v Hw IH Hv].
  - run. inversion Hd; subst; clear Hd. unfold solvent; simpl. lia.
  - apply transact_solvent; [exact IH|by apply wf_call_value].
  - unfold solvent in *; simpl. lia.
Qed.

End Invariants.

(** ** The concrete states are states of the deployed contract *)

Section Examples.

#[local] Existing Instance FHE.mock.

Lemma deployed_reachable : reachable deployed.
Proof.
  apply (reach_deploy deployer one_ether 0 deployed
           [Emit (RewardPoolDeposited 1 one_ether)]).
  - unfold wf_env; simpl; lia.
  - unfold is_uint256, MAX_UINT256, one_ether; lia.
  - lia.
  - reflexivity.
Qed.

Lemma alice_wf n : 0 <= n < 2 ^ 32 -> wf_env (alice n).
Proof. unfold wf_env; simpl; lia. Qed.

Lemma checked_in_reachable : reachable checked_in.
Proof.
  apply reach_transact.
  - exact deployed_reachable.
  - apply alice_wf; lia.
  - exact I.
Qed.

Lemma streak2_reachable : reachable streak2.
Proof.
  apply reach_transact.
  - exact checked_in_reachable.
  - apply alice_wf; lia.
  - exact I.
Qed.

Lemma claimed1_reachable : reachable claimed1.
Proof.
  apply reach_transact.
  - exact checked_in_reachable.
  - apply alice_wf; lia.
  - unfold wf_call, is_uint256, MAX_UINT256; lia.
Qed.

End Examples.

(** ** The repository's unit tests, on the model *)

Section UnitTests.

#[local] Existing Instance FHE.mock.

(** "Should set the right owner", "Should initialize reward pool". *)
Example test_deployment :
  deploy deployer one_ether 0
  = Success deployed [Emit (RewardPoolDeposited 1 one_ether)].
Proof. reflexivity. Qed.

(** "Should allow user to check in". *)
Example test_check_in :
  behaviour (transact (alice 0) CheckIn deployed)
  = Ok [Emit (CheckInReset 7 1700000000);
        Allow (Some 1) ThisContract;
        Allow (Some 1) (Account 7);
        Emit (CheckedIn 7 1700000000)].
Proof. reflexivity. Qed.

(** "Should prevent double check-in on same day". *)
Example test_double_check_in :
  transact (alice 1) CheckIn checked_in
  = Reverted (Revert "Already checked in today").
Proof. reflexivity. Qed.

(** "Should allow deposits to reward pool": 1 ether becomes 1.5. *)
Example test_deposit :
  rewardPool
    (c_storage
       (state_after (alice 0) (DepositRewardPool 500000000000000000) deployed))
  = 1500000000000000000.
Proof. reflexivity. Qed.

(** "Should allow owner to withdraw from reward pool": 1 ether becomes 0.9. *)
Example test_withdraw :
  transact deployer (WithdrawRewardPool 100000000000000000) deployed
  = Success
      {| c_storage :=
           {| owner := 1; userCheckIns := ∅;
              rewardPool := 900000000000000000 |};
         c_balance := 900000000000000000 |}
      [Transfer 1 100000000000000000;
       Emit (RewardPoolWithdrawn 1 100000000000000000)].
Proof. reflexivity. Qed.

(** "Should prevent non-owner from withdrawing". *)
Example test_withdraw_not_owner :
  transact (alice 0) (WithdrawRewardPool 100000000000000000) deployed
  = Reverted (Revert "Only owner can call this").
Proof. reflexivity. Qed.

(** "Should allow user to reset their check-in". *)
Example test_reset :
  view (getUserLastCheckInTime 7) (state_after (alice 1) ResetCheckIn checked_in)
  = Ok 0.
Proof. reflexivity. Qed.

(** "Should return correct check-in status". *)
Example test_can_check_in :
  view (canCheckIn (alice 0) 7) deployed = Ok true
  /\ view (canCheckIn (alice 1) 7) checked_in = Ok false.
Proof. split; reflexivity. Qed.

(** "Should return next check-in time". *)
Example test_next_check_in_time :
  view (getNextCheckInTime (alice 0) 7) deployed = Ok 1700000000
  /\ view (getNextCheckInTime (alice 1) 7) checked_in = Ok 1700086400.
Proof. split; reflexivity. Qed.

End UnitTests.

(** ** The check-in cooldown *)

Section CheckIn.

Context {fhevm : FHE.runtime}.

(** C1. In every state of the deployed contract and for every caller,
    [checkIn] succeeds if and only if at least [CHECK_IN_INTERVAL]
    (24 hours) have passed since the caller's stored [lastCheckInTime];
    whenever it does not succeed it reverts with "Already checked in
    today"; a caller who never checked in has [lastCheckInTime = 0] and
    passes the gate at any block time from 86400 on. *)
Theorem checkIn_cooldown (e : env) (w : contract) :
  reachable w -> wf_env e ->
  (succeeds (transact e CheckIn w) <->
     lastCheckInTime (user_of (c_storage w) (msg_sender e))
       + CHECK_IN_INTERVAL <= block_timestamp e)
  /\ (~ succeeds (transact e CheckIn w) ->
      transact e CheckIn w = Reverted (Revert "Already checked in today"))
  /\ (userCheckIns (c_storage w) !! msg_sender e = None ->
      lastCheckInTime (user_of (c_storage w) (msg_sender e)) = 0)
  /\ (lastCheckInTime (user_of (c_storage w) (msg_sender e)) = 0 ->
      CHECK_IN_INTERVAL <= block_timestamp e ->
      succeeds (transact e CheckIn w)).
Proof.
  intros Hw [_ Hts].
  pose proof (reachable_times w Hw (msg_sender e)) as Hlast.
  repeat split.
  - run; branches; constants; simpl; intros; lia || tauto.
  - run; branches; constants; simpl; intros; lia || tauto.
  - run; branches; constants; simpl; intros; (reflexivity || lia || tauto).
  - intros Hnone. unfold user_of. by rewrite Hnone.
  - run; branches; constants; simpl; intros; lia || tauto.
Qed.

End CheckIn.

Section CheckInExamples.

#[local] Existing Instance FHE.mock.

Lemma checkIn_cooldown_witness :
reachable checked_in /\ wf_env (alice 3600) /\
~ succeeds (transact (alice 3600) CheckIn checked_in) /\
transact (alice 3600) CheckIn checked_in
= Reverted (Revert "Already checked in today").
Proof.
pose proof (checkIn_cooldown (alice 3600) checked_in checked_in_reachable
              (alice_wf 3600 ltac:(lia))) as [Hiff [Hrev _]].
assert (Hno : ~ succeeds (transact (alice 3600) CheckIn checked_in)).
{ intros Hs. apply Hiff in Hs. vm_compute in Hs. apply Hs. reflexivity. }
split; [exact checked_in_reachable|].
split; [apply alice_wf; lia|].
split; [exact Hno|exact (Hrev Hno)].
Defined.

End CheckInExamples.

Section CheckInEffect.

Context {fhevm : FHE.runtime}.

(** C2, amended. Every successful [checkIn] sets the caller's
    [lastCheckInTime] to the block timestamp.  When the call comes no more
    than 48 hours after the stored [lastCheckInTime], the caller's
    [encryptedDays] becomes [FHE.add] of the handle stored when the
    transaction began and an encryption of 1: the counter grows by one, in
    32-bit arithmetic.  When it comes later, the counter restarts and ends
    at 1, whatever it was. *)
Theorem checkIn_effect (e : env) (w : contract) :
  succeeds (transact e CheckIn w) ->
  lastCheckInTime (user_of (c_storage (state_after e CheckIn w)) (msg_sender e))
  = block_timestamp e
  /\ (block_timestamp e
        <= lastCheckInTime (user_of (c_storage w) (msg_sender e))
           + CHECK_IN_INTERVAL * 2 ->
      encryptedDays
        (user_of (c_storage (state_after e CheckIn w)) (msg_sender e))
      = FHE.add (encryptedDays (user_of (c_storage w) (msg_sender e)))
                (FHE.asEuint32 1)
      /\ FHE.cleartext
           (encryptedDays
              (user_of (c_storage (state_after e CheckIn w)) (msg_sender e)))
         = (FHE.cleartext
              (encryptedDays (user_of (c_storage w) (msg_sender e))) + 1)
           mod 2 ^ 32)
  /\ (lastCheckInTime (user_of (c_storage w) (msg_sender e))
        + CHECK_IN_INTERVAL * 2 < block_timestamp e ->
      FHE.cleartext
        (encryptedDays
           (user_of (c_storage (state_after e CheckIn w)) (msg_sender e)))
      = 1).
Proof.
  intros Hok. run; branches; try contradiction; users.
  - split; [reflexivity|]. split; [lia|]. intros _.
    rewrite FHE.cleartext_add, !FHE.cleartext_asEuint32 by lia.
    reflexivity.
  - split; [reflexivity|]. split; [|lia]. intros _.
    split; [reflexivity|].
    rewrite FHE.cleartext_add, FHE.cleartext_asEuint32 by lia.
    reflexivity.
Qed.

End CheckInEffect.

Section CheckInEffectExamples.

#[local] Existing Instance FHE.mock.

Lemma checkIn_effect_witness :
  succeeds (transact (alice 86400) CheckIn checked_in) /\
  FHE.cleartext (encryptedDays (user_of (c_storage checked_in) 7)) = 1 /\
  FHE.cleartext (encryptedDays (user_of (c_storage streak2) 7)) = 2 /\
  lastCheckInTime (user_of (c_storage streak2) 7) = 1700086400.
Proof.
  assert (Hok : succeeds (transact (alice 86400) CheckIn checked_in))
    by (vm_compute; exact I).
  destruct (checkIn_effect (alice 86400) checked_in Hok) as [Ht [Hinc _]].
  split; [exact Hok|].
  split; [reflexivity|].
  split; [|exact Ht].
  destruct Hinc as [_ Hclear]; [vm_compute; discriminate|].
  exact Hclear.
Defined.

(** C2 as stated fails: account 7 has a two-day streak and checks in
    three days after its last check-in; the call succeeds and the counter
    goes from 2 to 1, not to 3. *)
Lemma checkIn_increment_counterexample :
  succeeds (transact (alice 345600) CheckIn streak2) /\
  FHE.cleartext (encryptedDays (user_of (c_storage streak2) 7)) = 2 /\
  FHE.cleartext
    (encryptedDays
       (user_of (c_storage (state_after (alice 345600) CheckIn streak2)) 7))
  = 1.
Proof. vm_compute. repeat split. Qed.

End CheckInEffectExamples.

(** ** Continuity of a streak *)

Section Continuity.

Context {fhevm : FHE.runtime}.

(** C9. A [checkIn] more than 48 hours ([CHECK_IN_INTERVAL * 2]) after the
    caller's [lastCheckInTime] succeeds, resets [encryptedDays] to an
    encryption of 0 and [lastClaimedDay] to 0 before the increment, and so
    leaves the counter at 1.  A [checkIn] between 24 and 48 hours after
    [lastCheckInTime] succeeds and resets neither: the counter is the old
    handle plus one and [lastClaimedDay] is unchanged. *)
Theorem checkIn_continuity (e : env) (w : contract) :
  reachable w -> wf_env e ->
  (lastCheckInTime (user_of (c_storage w) (msg_sender e))
     + CHECK_IN_INTERVAL * 2 < block_timestamp e ->
   succeeds (transact e CheckIn w)
   /\ encryptedDays
        (user_of (c_storage (state_after e CheckIn w)) (msg_sender e))
      = FHE.add (FHE.asEuint32 0) (FHE.asEuint32 1)
   /\ FHE.cleartext
        (encryptedDays
           (user_of (c_storage (state_after e CheckIn w)) (msg_sender e)))
      = 1
   /\ lastClaimedDay
        (user_of (c_storage (state_after e CheckIn w)) (msg_sender e))
      = 0)
  /\ (lastCheckInTime (user_of (c_storage w) (msg_sender e))
        + CHECK_IN_INTERVAL <= block_timestamp e
      <= lastCheckInTime (user_of (c_storage w) (msg_sender e))
         + CHECK_IN_INTERVAL * 2 ->
      succeeds (transact e CheckIn w)
      /\ encryptedDays
           (user_of (c_storage (state_after e CheckIn w)) (msg_sender e))
         = FHE.add (encryptedDays (user_of (c_storage w) (msg_sender e)))
                   (FHE.asEuint32 1)
      /\ lastClaimedDay
           (user_of (c_storage (state_after e CheckIn w)) (msg_sender e))
         = lastClaimedDay (user_of (c_storage w) (msg_sender e))).
Proof.
  intros Hw [_ Hts].
  pose proof (reachable_times w Hw (msg_sender e)) as Hlast.
  split; intros Hgap; run; branches; users; constants;
    try lia; repeat split.
  rewrite FHE.cleartext_add, !FHE.cleartext_asEuint32 by lia.
  reflexivity.
Qed.

End Continuity.

Section ContinuityExamples.

#[local] Existing Instance FHE.mock.

Lemma checkIn_continuity_witness :
  reachable claimed1 /\ wf_env (alice 345600) /\
  lastClaimedDay (user_of (c_storage claimed1) 7) = 1 /\
  succeeds (transact (alice 345600) CheckIn claimed1) /\
  lastClaimedDay
    (user_of (c_storage (state_after (alice 345600) CheckIn claimed1)) 7)
  = 0.
Proof.
  destruct (checkIn_continuity (alice 345600) claimed1 claimed1_reachable
              (alice_wf 345600 ltac:(lia))) as [Hlate _].
  destruct Hlate as [Hok [_ [_ Hday]]]; [vm_compute; reflexivity|].
  split; [exact claimed1_reachable|].
  split; [apply alice_wf; lia|].
  split; [reflexivity|].
  split; [exact Hok|exact Hday].
Defined.

End ContinuityExamples.

(** ** Claiming a reward *)

Section ClaimReward.

Context {fhevm : FHE.runtime}.

(** C3. A successful [claimReward] takes exactly [REWARD_AMOUNT]
    (0.0001 ether) off [rewardPool] and sends that amount to the caller.
    [claimReward] reverts, and leaves the contract as it was, whenever
    [rewardPool < REWARD_AMOUNT], whenever [currentDay % 2 != 1], and
    whenever [currentDay <= lastClaimedDay] of the caller. *)
Theorem claimReward_pool (e : env) (currentDay : Z) (w : contract) :
  (forall w' tr,
      transact e (ClaimReward currentDay) w = Success w' tr ->
      rewardPool (c_storage w') = rewardPool (c_storage w) - REWARD_AMOUNT
      /\ c_balance w' = c_balance w - REWARD_AMOUNT
      /\ tr = [Transfer (msg_sender e) REWARD_AMOUNT;
               Emit (RewardClaimed (msg_sender e) currentDay REWARD_AMOUNT)])
  /\ (rewardPool (c_storage w) < REWARD_AMOUNT
      \/ currentDay mod 2 <> 1
      \/ currentDay <= lastClaimedDay (user_of (c_storage w) (msg_sender e)) ->
      (exists reason,
          transact e (ClaimReward currentDay) w = Reverted (Revert reason))
      /\ state_after e (ClaimReward currentDay) w = w).
Proof.
  split.
  - intros w' tr Hrun. run; branches; try discriminate.
    inversion Hrun; subst; clear Hrun. simpl. users. repeat split; lia.
  - intros Hguard. run; branches; users; constants;
      try (split; [eexists; reflexivity|reflexivity]); lia.
Qed.

End ClaimReward.

Section ClaimRewardExamples.

#[local] Existing Instance FHE.mock.

Lemma claimReward_pool_witness :
  rewardPool (c_storage claimed1) = one_ether - REWARD_AMOUNT /\
  c_balance claimed1 = one_ether - REWARD_AMOUNT /\
  state_after (alice 200) (ClaimReward 1) claimed1 = claimed1 /\
  state_after (alice 200) (ClaimReward 2) claimed1 = claimed1.
Proof.
  destruct (claimReward_pool (alice 100) 1 checked_in) as [Hpay _].
  destruct (Hpay claimed1
              [Transfer 7 REWARD_AMOUNT;
               Emit (RewardClaimed 7 1 REWARD_AMOUNT)] eq_refl)
    as [Hpool [Hbal _]].
  destruct (claimReward_pool (alice 200) 1 claimed1) as [_ Hagain].
  destruct (claimReward_pool (alice 200) 2 claimed1) as [_ Heven].
  split; [exact Hpool|]. split; [exact Hbal|]. split.
  - apply Hagain. right; right. vm_compute. discriminate.
  - apply Heven. right; left. vm_compute. discriminate.
Defined.

End ClaimRewardExamples.

(** ** What a claim depends on *)

Section ClaimInputs.

Context {fhevm : FHE.runtime}.

Lemma claimReward_behaviour (e : env) (d : Z) (w : contract)
    (a : address) (h : FHE.euint32) :
  behaviour (transact e (ClaimReward d) (replace_encryptedDays a h w))
  = behaviour (transact e (ClaimReward d) w).
Proof.
  unfold replace_encryptedDays.
  destruct (decide (a = msg_sender e)) as [->|Hne];
    run; branches; reflexivity.
Qed.

(** C4, amended. [claimReward] never reads [encryptedDays]: two states
    that differ only in an account's [encryptedDays] give the same outcome
    for the same call (the same success or failure, the same payment and
    events), and the states after the call differ in that handle only.
    The claim is checked against the plaintext argument [currentDay], the
    caller's [lastClaimedDay] and [rewardPool]; nothing is delegated to the
    FHEVM. *)
Theorem claimReward_ignores_encryptedDays (e : env) (d : Z) (w : contract)
    (a : address) (h : FHE.euint32) :
  behaviour (transact e (ClaimReward d) (replace_encryptedDays a h w))
  = behaviour (transact e (ClaimReward d) w)
  /\ state_after e (ClaimReward d) (replace_encryptedDays a h w)
     = replace_encryptedDays a h (state_after e (ClaimReward d) w).
Proof.
  split; [apply claimReward_behaviour|].
  unfold replace_encryptedDays.
  destruct (decide (a = msg_sender e)) as [->|Hne];
    run; branches; try reflexivity.
  - unfold set_user; simpl. by rewrite !insert_insert_eq.
  - unfold set_user; simpl. f_equal. f_equal.
    by rewrite insert_insert_ne.
Qed.

End ClaimInputs.

Section ClaimInputsExamples.

(** C4 as stated fails: on no FHEVM are there two states that differ only
    in the caller's [encryptedDays] and make [claimReward], with the same
    argument, behave differently. *)
Lemma claimReward_depends_on_days_counterexample :
  ~ exists (fhevm : FHE.runtime) (w : contract) (e : env) (d : Z)
      (h : FHE.euint32),
      behaviour
        (transact e (ClaimReward d) (replace_encryptedDays (msg_sender e) h w))
      <> behaviour (transact e (ClaimReward d) w).
Proof.
  intros (fhevm & w & e & d & h & Hdiff). apply Hdiff.
  apply claimReward_behaviour.
Qed.

End ClaimInputsExamples.

(** ** Ownership *)

Section Ownership.

Context {fhevm : FHE.runtime}.

(** C5, amended. The contract's storage is three variables: [owner], the
    per-address structs [userCheckIns] and [rewardPool].  [owner] is
    written by one entry point only: when a call changes it, the call is
    [transferOwnership], made by the current owner with a non-zero
    address, which becomes the owner. *)
Theorem owner_written_by_transferOwnership (e : env) (c : call)
    (w : contract) :
  owner (c_storage (state_after e c w)) <> owner (c_storage w) ->
  exists newOwner,
    c = TransferOwnership newOwner
    /\ msg_sender e = owner (c_storage w)
    /\ newOwner <> 0
    /\ owner (c_storage (state_after e c w)) = newOwner.
Proof.
  intros Hchange.
  destruct c as [| | | | | |newOwner| | |[]]; run; branches;
    try (exfalso; apply Hchange; reflexivity).
  exists newOwner. repeat split; assumption.
Qed.

(** C8. [withdrawRewardPool], [emergencyWithdraw] and [transferOwnership]
    revert with "Only owner can call this" for every caller other than the
    current owner and leave the contract as it was; [transferOwnership]
    called by the owner with a non-zero address makes that address the
    owner. *)
Theorem admin_only_owner (e : env) (w : contract) :
  (msg_sender e <> owner (c_storage w) ->
   forall c, is_admin c = true ->
     transact e c w = Reverted (Revert "Only owner can call this")
     /\ state_after e c w = w)
  /\ (msg_sender e = owner (c_storage w) ->
      forall newOwner, newOwner <> 0 ->
        succeeds (transact e (TransferOwnership newOwner) w)
        /\ owner (c_storage (state_after e (TransferOwnership newOwner) w))
           = newOwner).
Proof.
  split.
  - intros Hother c Hadmin.
    destruct c; try discriminate Hadmin; run; branches;
      try contradiction; split; reflexivity.
  - intros Howner newOwner Hnz. run; branches;
      try contradiction; split; (exact I || reflexivity).
Qed.

End Ownership.

Section OwnershipExamples.

#[local] Existing Instance FHE.mock.

(** C5 as stated fails: [transferOwnership] is a public entry point and
    writes [owner], which is neither the per-address struct nor the pool. *)
Lemma owner_slot_counterexample :
  is_entry_point (TransferOwnership 9) = true /\
  owner (c_storage deployed) = 1 /\
  owner (c_storage (state_after deployer (TransferOwnership 9) deployed)) = 9 /\
  userCheckIns (c_storage (state_after deployer (TransferOwnership 9) deployed))
  = userCheckIns (c_storage deployed) /\
  rewardPool (c_storage (state_after deployer (TransferOwnership 9) deployed))
  = rewardPool (c_storage deployed).
Proof. repeat split. Qed.

Lemma owner_written_by_transferOwnership_witness :
  owner (c_storage (state_after deployer (TransferOwnership 9) deployed))
  <> owner (c_storage deployed) /\
  exists newOwner,
    TransferOwnership 9 = TransferOwnership newOwner
    /\ msg_sender deployer = owner (c_storage deployed)
    /\ newOwner <> 0
    /\ owner (c_storage (state_after deployer (TransferOwnership 9) deployed))
       = newOwner.
Proof.
  assert (Hchange :
    owner (c_storage (state_after deployer (TransferOwnership 9) deployed))
    <> owner (c_storage deployed)) by (vm_compute; discriminate).
  split; [exact Hchange|].
  exact (owner_written_by_transferOwnership deployer (TransferOwnership 9)
           deployed Hchange).
Defined.

Lemma admin_only_owner_witness :
  msg_sender (alice 0) <> owner (c_storage deployed) /\
  transact (alice 0) (WithdrawRewardPool 5) deployed
  = Reverted (Revert "Only owner can call this") /\
  transact (alice 0) EmergencyWithdraw deployed
  = Reverted (Revert "Only owner can call this") /\
  transact (alice 0) (TransferOwnership 7) deployed
  = Reverted (Revert "Only owner can call this") /\
  msg_sender deployer = owner (c_storage deployed) /\
  owner (c_storage (state_after deployer (TransferOwnership 9) deployed)) = 9.
Proof.
  assert (Hother : msg_sender (alice 0) <> owner (c_storage deployed))
    by (vm_compute; discriminate).
  destruct (admin_only_owner (alice 0) deployed) as [Hrevert _].
  destruct (admin_only_owner deployer deployed) as [_ Hset].
  split; [exact Hother|].
  split; [apply (Hrevert Hother (WithdrawRewardPool 5) eq_refl)|].
  split; [apply (Hrevert Hother EmergencyWithdraw eq_refl)|].
  split; [apply (Hrevert Hother (TransferOwnership 7) eq_refl)|].
  split; [reflexivity|].
  apply (Hset eq_refl 9). discriminate.
Defined.

End OwnershipExamples.

(** ** The external surface *)

Section Surface.

Context {fhevm : FHE.runtime}.

(** C6, amended. After deployment, a change of the contract's storage
    comes from one of the seven entry points or from ether sent to
    [receive()] or [fallback()], which add the value sent to [rewardPool];
    the view functions change nothing. *)
Theorem storage_changes_come_from_calls (e : env) (c : call) (w : contract) :
  c_storage (state_after e c w) <> c_storage w ->
  is_entry_point c = true
  \/ exists v,
       (c = Receive v \/ c = Fallback v)
       /\ v <> 0
       /\ rewardPool (c_storage (state_after e c w))
          = rewardPool (c_storage w) + v.
Proof.
  intros Hchange.
  destruct c as [| | | | | | |v|v|[]]; try (left; reflexivity);
    right; run; branches; try (exfalso; apply Hchange; reflexivity).
  - exists v. split; [left; reflexivity|]. split; [|reflexivity].
    intros ->. apply Hchange. destruct w as [[o u p] b]; simpl.
    unfold set_rewardPool; simpl. f_equal. lia.
  - exists v. split; [right; reflexivity|]. split; [|reflexivity].
    intros ->. apply Hchange. destruct w as [[o u p] b]; simpl.
    unfold set_rewardPool; simpl. f_equal. lia.
Qed.

End Surface.

Section SurfaceExamples.

#[local] Existing Instance FHE.mock.

Lemma deposit_changes_storage :
  c_storage (state_after deployer (Receive 5) deployed) <> c_storage deployed.
Proof.
  intros Heq. apply (f_equal rewardPool) in Heq. vm_compute in Heq.
  discriminate Heq.
Qed.

(** C6 as stated fails: a plain transfer of 5 wei runs [receive()], which
    is none of the seven entry points, and changes [rewardPool]. *)
Lemma receive_counterexample :
  is_entry_point (Receive 5) = false /\
  c_storage (state_after deployer (Receive 5) deployed) <> c_storage deployed /\
  rewardPool (c_storage (state_after deployer (Receive 5) deployed))
  = rewardPool (c_storage deployed) + 5.
Proof.
  split; [reflexivity|]. split; [exact deposit_changes_storage|].
  vm_compute. reflexivity.
Qed.

Lemma storage_changes_come_from_calls_witness :
  c_storage (state_after deployer (Receive 5) deployed) <> c_storage deployed /\
  (is_entry_point (Receive 5) = true
   \/ exists v,
        (Receive 5 = Receive v \/ Receive 5 = Fallback v)
        /\ v <> 0
        /\ rewardPool (c_storage (state_after deployer (Receive 5) deployed))
           = rewardPool (c_storage deployed) + v).
Proof.
  split; [exact deposit_changes_storage|].
  exact (storage_changes_come_from_calls deployer (Receive 5) deployed
           deposit_changes_storage).
Defined.

End SurfaceExamples.

(** ** Failures *)

Section Failures.

Context {fhevm : FHE.runtime}.

(** C7. Every call either runs to its end, and its result is the state its
    whole body computed, or reverts; a revert comes from a [require] clause
    (or from a checked arithmetic operation) and leaves the contract, that
    is every user's struct, [rewardPool], [owner] and the balance, exactly
    as it was before the call. *)
Theorem revert_restores_state (e : env) (c : call) (w : contract) :
  (exists w' tr m,
      body e c (begin c w) = Ok (tt, m)
      /\ transact e c w = Success w' tr
      /\ w' = {| c_storage := m_storage m; c_balance := m_balance m |}
      /\ state_after e c w = w')
  \/ (exists f,
         transact e c w = Reverted f
         /\ state_after e c w = w
         /\ (f = Panic 17
             \/ exists reason, f = Revert reason /\ In reason require_messages)).
Proof.
  destruct c as [| | | | | | | | |[]]; run; branches;
    solve
      [ left; eexists; eexists; eexists; repeat split; reflexivity
      | right; eexists; split; [reflexivity|]; split; [reflexivity|];
        first [ left; reflexivity
              | right; eexists; split; [reflexivity|]; cbn; tauto ] ].
Qed.

End Failures.

Section FailuresExamples.

#[local] Existing Instance FHE.mock.

(** A recipient that refuses the reward: [claimReward] has written
    [lastClaimedDay] and [rewardPool] when the transfer fails, and none of
    it is kept. *)
Lemma refused_claim_is_undone :
  transact refusing (ClaimReward 1) checked_in
  = Reverted (Revert "Reward transfer failed")
  /\ state_after refusing (ClaimReward 1) checked_in = checked_in.
Proof. split; reflexivity. Qed.

End FailuresExamples.

(** ** Solvency *)

Section Solvency.

Context {fhevm : FHE.runtime}.

(** C10. In every state reachable from the constructor by transactions
    (deposits through [receive()] and [fallback()] included) and by ether
    forced on the contract, [rewardPool <= address(this).balance]; so a
    [claimReward] or a [withdrawRewardPool] that passes its guards never
    fails for lack of ether: it succeeds as soon as the recipient accepts
    the payment. *)
Theorem pool_is_funded (w : contract) :
  reachable w ->
  rewardPool (c_storage w) <= c_balance w
  /\ (forall e currentDay,
        recipient_accepts e = true ->
        currentDay mod 2 = 1 ->
        lastClaimedDay (user_of (c_storage w) (msg_sender e)) < currentDay ->
        REWARD_AMOUNT <= rewardPool (c_storage w) ->
        succeeds (transact e (ClaimReward currentDay) w))
  /\ (forall e amount,
        recipient_accepts e = true ->
        msg_sender e = owner (c_storage w) ->
        amount <= rewardPool (c_storage w) ->
        succeeds (transact e (WithdrawRewardPool amount) w)).
Proof.
  intros Hw. pose proof (reachable_solvent w Hw) as Hpool.
  unfold solvent in Hpool. split; [exact Hpool|]. split.
  - intros [sender ts acc] d Hacc Hodd Hday Hamount. simpl in *. subst acc.
    run.
    branches; constants; simpl; try exact I; try lia; try discriminate.
  - intros [sender ts acc] amount Hacc Howner Hamount. simpl in *.
    subst acc. run.
    branches; constants; simpl; try exact I; try lia; try discriminate.
Qed.

End Solvency.

Section SolvencyExamples.

#[local] Existing Instance FHE.mock.

Lemma pool_is_funded_witness :
  reachable claimed1 /\
  rewardPool (c_storage claimed1) <= c_balance claimed1 /\
  succeeds (transact (alice 86400) (ClaimReward 3) claimed1) /\
  succeeds (transact deployer (WithdrawRewardPool REWARD_AMOUNT) claimed1).
Proof.
  destruct (pool_is_funded claimed1 claimed1_reachable)
    as [Hpool [Hclaim Hwithdraw]].
  split; [exact claimed1_reachable|]. split; [exact Hpool|]. split.
  - apply Hclaim; vm_compute; first [reflexivity|discriminate].
  - apply Hwithdraw; vm_compute; first [reflexivity|discriminate].
Defined.

End SolvencyExamples.

(** ** Resetting a streak *)

Section Reset.

Context {fhevm : FHE.runtime}.

(** X1. [resetCheckIn] never reverts.  It leaves the caller with a counter
    that decrypts to 0, [lastCheckInTime = 0] and [lastClaimedDay = 0],
    emits [CheckInReset] and nothing else, and leaves every other user,
    the owner, the pool and the balance as they were. *)
Theorem resetCheckIn_effect (e : env) (w : contract) :
  behaviour (transact e ResetCheckIn w)
  = Ok [Emit (CheckInReset (msg_sender e) (block_timestamp e))]
  /\ FHE.cleartext
       (encryptedDays
          (user_of (c_storage (state_after e ResetCheckIn w)) (msg_sender e)))
     = 0
  /\ lastCheckInTime
       (user_of (c_storage (state_after e ResetCheckIn w)) (msg_sender e)) = 0
  /\ lastClaimedDay
       (user_of (c_storage (state_after e ResetCheckIn w)) (msg_sender e)) = 0
  /\ (forall a, a <> msg_sender e ->
        user_of (c_storage (state_after e ResetCheckIn w)) a
        = user_of (c_storage w) a)
  /\ owner (c_storage (state_after e ResetCheckIn w)) = owner (c_storage w)
  /\ rewardPool (c_storage (state_after e ResetCheckIn w))
     = rewardPool (c_storage w)
  /\ c_balance (state_after e ResetCheckIn w) = c_balance w.
Proof.
  run. repeat split; users; try reflexivity.
  - apply FHE.cleartext_asEuint32. lia.
  - intros a Hne. users. reflexivity.
  - lia.
Qed.

(** X2. [resetCheckIn] lifts the cooldown: whatever the caller's
    [lastCheckInTime], a [checkIn] right after a [resetCheckIn] (the same
    block included) succeeds at any block time from 86400 on, and leaves
    the counter at 1. *)
Theorem reset_lifts_cooldown (e : env) (w : contract) :
  CHECK_IN_INTERVAL <= block_timestamp e ->
  succeeds (transact e CheckIn (state_after e ResetCheckIn w))
  /\ FHE.cleartext
       (encryptedDays
          (user_of
             (c_storage
                (state_after e CheckIn (state_after e ResetCheckIn w)))
             (msg_sender e)))
     = 1.
Proof.
  intros Hts. run. branches; constants; try lia.
  - split; [exact I|].
    rewrite FHE.cleartext_add, !FHE.cleartext_asEuint32 by lia.
    reflexivity.
  - split; [exact I|].
    rewrite FHE.cleartext_add, !FHE.cleartext_asEuint32 by lia.
    reflexivity.
Qed.

End Reset.

Section ResetExamples.

#[local] Existing Instance FHE.mock.

Lemma reset_lifts_cooldown_witness :
  CHECK_IN_INTERVAL <= block_timestamp (alice 1) /\
  transact (alice 1) CheckIn checked_in
  = Reverted (Revert "Already checked in today") /\
  succeeds
    (transact (alice 1) CheckIn (state_after (alice 1) ResetCheckIn checked_in)).
Proof.
  assert (Hts : CHECK_IN_INTERVAL <= block_timestamp (alice 1))
    by (vm_compute; discriminate).
  split; [exact Hts|]. split; [reflexivity|].
  exact (proj1 (reset_lifts_cooldown (alice 1) checked_in Hts)).
Defined.

End ResetExamples.

(** ** More on claims *)

Section Claims.

Context {fhevm : FHE.runtime}.


(** X4. A successful [claimReward] writes the caller's [lastClaimedDay] and
    nothing else of the users: the caller's [encryptedDays] and
    [lastCheckInTime], every other user's struct and the owner are as
    before. *)
Theorem claimReward_frame (e : env) (currentDay : Z) (w : contract) :
  encryptedDays
    (user_of (c_storage (state_after e (ClaimReward currentDay) w))
       (msg_sender e))
  = encryptedDays (user_of (c_storage w) (msg_sender e))
  /\ lastCheckInTime
       (user_of (c_storage (state_after e (ClaimReward currentDay) w))
          (msg_sender e))
     = lastCheckInTime (user_of (c_storage w) (msg_sender e))
  /\ (forall a, a <> msg_sender e ->
        user_of (c_storage (state_after e (ClaimReward currentDay) w)) a
        = user_of (c_storage w) a)
  /\ owner (c_storage (state_after e (ClaimReward currentDay) w))
     = owner (c_storage w).
Proof.
  run. branches; repeat split; try reflexivity;
    intros a Hne; users; reflexivity.
Qed.

(** X5. [resetCheckIn] clears the record of claims: in a funded contract,
    a caller who resets can claim any odd day again, day 1 included,
    whatever was claimed before. *)
Theorem reset_reopens_claims (e : env) (currentDay : Z) (w : contract) :
  recipient_accepts e = true ->
  currentDay mod 2 = 1 ->
  0 < currentDay ->
  REWARD_AMOUNT <= rewardPool (c_storage w) <= c_balance w ->
  succeeds
    (transact e (ClaimReward currentDay) (state_after e ResetCheckIn w)).
Proof.
  intros Hacc Hodd Hpos Hpool. destruct e as [sender ts acc].
  simpl in Hacc. subst acc. run.
  branches; constants; simpl; try exact I; try lia; try discriminate.
Qed.

End Claims.

Section ClaimsExamples.

#[local] Existing Instance FHE.mock.


Lemma reset_reopens_claims_witness :
  transact (alice 200) (ClaimReward 1) claimed1
  = Reverted (Revert "Reward already claimed for this milestone") /\
  succeeds
    (transact (alice 200) (ClaimReward 1)
       (state_after (alice 200) ResetCheckIn claimed1)).
Proof.
  split; [reflexivity|].
  apply reset_reopens_claims;
    vm_compute; first [reflexivity | split; discriminate].
Defined.

End ClaimsExamples.

(** ** The reward pool *)

Section Pool.

Context {fhevm : FHE.runtime}.

(** X6. [depositRewardPool] refuses an empty deposit with "Deposit amount
    must be greater than 0", while [receive()] and [fallback()] accept one;
    for a positive value the three do the same: [rewardPool] and the
    balance grow by the value sent, [RewardPoolDeposited] is emitted, and
    users and owner are untouched. *)
Theorem deposits (e : env) (v : Z) (w : contract) :
  0 <= v ->
  rewardPool (c_storage w) + v <= MAX_UINT256 ->
  (v = 0 ->
   transact e (DepositRewardPool v) w
   = Reverted (Revert "Deposit amount must be greater than 0"))
  /\ (0 < v ->
      transact e (DepositRewardPool v) w = transact e (Receive v) w)
  /\ transact e (Fallback v) w = transact e (Receive v) w
  /\ transact e (Receive v) w
     = Success
         {| c_storage := set_rewardPool (rewardPool (c_storage w) + v)
                           (c_storage w);
            c_balance := c_balance w + v |}
         [Emit (RewardPoolDeposited (msg_sender e) v)].
Proof.
  intros Hpos Hfit. repeat split; try intros Hv; run; branches;
    try reflexivity; lia.
Qed.

(** X7. [withdrawRewardPool] called by the owner reverts with
    "Insufficient balance in reward pool" when the amount exceeds
    [rewardPool]; otherwise, when the contract holds the ether and the
    owner accepts it, the pool and the balance drop by exactly the amount,
    which is sent to the owner. *)
Theorem withdrawRewardPool_effect (e : env) (amount : Z) (w : contract) :
  msg_sender e = owner (c_storage w) ->
  (rewardPool (c_storage w) < amount ->
   transact e (WithdrawRewardPool amount) w
   = Reverted (Revert "Insufficient balance in reward pool"))
  /\ (amount <= rewardPool (c_storage w) ->
      amount <= c_balance w ->
      recipient_accepts e = true ->
      transact e (WithdrawRewardPool amount) w
      = Success
          {| c_storage := set_rewardPool (rewardPool (c_storage w) - amount)
                            (c_storage w);
             c_balance := c_balance w - amount |}
          [Transfer (owner (c_storage w)) amount;
           Emit (RewardPoolWithdrawn (owner (c_storage w)) amount)]).
Proof.
  intros Howner. destruct e as [sender ts acc]. simpl in Howner. subst sender.
  split.
  - intros Hmore. run. branches; try reflexivity; lia.
  - intros Hless Hheld Hacc. simpl in Hacc. subst acc. run.
    branches; try lia; try discriminate.
    replace (c_balance w + 0 - amount) with (c_balance w - amount) by lia.
    reflexivity.
Qed.


(** X9. No call but [emergencyWithdraw] touches the ether the contract holds
    beyond [rewardPool]: every other call, successful or not, leaves
    [balance - rewardPool] as it was. *)
Theorem surplus_is_kept (e : env) (c : call) (w : contract) :
  c <> EmergencyWithdraw ->
  surplus (state_after e c w) = surplus w.
Proof.
  intros Hc. unfold surplus.
  destruct c as [| | | | | | | | |[]]; try contradiction;
    run; branches; lia.
Qed.

(** X10. The owner is never set to the zero address: a call on a contract
    whose owner is not 0 leaves it with an owner that is not 0. *)
Theorem owner_stays_nonzero (e : env) (c : call) (w : contract) :
  owner (c_storage w) <> 0 ->
  owner (c_storage (state_after e c w)) <> 0.
Proof.
  intros Howner.
  destruct c as [| | | | | | | | |[]]; run; branches; assumption.
Qed.

End Pool.

Section PoolExamples.

#[local] Existing Instance FHE.mock.

Lemma deposits_witness :
  0 <= 5 /\ rewardPool (c_storage deployed) + 5 <= MAX_UINT256 /\
  transact (alice 0) (DepositRewardPool 0) deployed
  = Reverted (Revert "Deposit amount must be greater than 0") /\
  succeeds (transact (alice 0) (Receive 0) deployed) /\
  transact (alice 0) (DepositRewardPool 5) deployed
  = transact (alice 0) (Receive 5) deployed.
Proof.
  assert (Hfit : forall v, 0 <= v <= 5 ->
            rewardPool (c_storage deployed) + v <= MAX_UINT256).
  { intros v Hv. unfold MAX_UINT256. simpl. unfold one_ether. lia. }
  split; [lia|]. split; [apply Hfit; lia|].
  destruct (deposits (alice 0) 0 deployed ltac:(lia) (Hfit 0 ltac:(lia)))
    as [Hzero [_ [_ Hreceive]]].
  destruct (deposits (alice 0) 5 deployed ltac:(lia) (Hfit 5 ltac:(lia)))
    as [_ [Hsame _]].
  split; [apply Hzero; reflexivity|]. split.
  - rewrite Hreceive. exact I.
  - apply Hsame. lia.
Defined.

Lemma withdrawRewardPool_effect_witness :
  msg_sender deployer = owner (c_storage deployed) /\
  transact deployer (WithdrawRewardPool (one_ether + 1)) deployed
  = Reverted (Revert "Insufficient balance in reward pool") /\
  succeeds (transact deployer (WithdrawRewardPool one_ether) deployed).
Proof.
  destruct (withdrawRewardPool_effect deployer (one_ether + 1) deployed eq_refl)
    as [Hmore _].
  destruct (withdrawRewardPool_effect deployer one_ether deployed eq_refl)
    as [_ Hall].
  split; [reflexivity|]. split.
  - apply Hmore. simpl. lia.
  - rewrite Hall; [exact I|simpl; lia|simpl; lia|reflexivity].
Defined.


Lemma surplus_is_kept_witness :
  WithdrawRewardPool 5 <> EmergencyWithdraw /\
  surplus (state_after deployer (WithdrawRewardPool 5) deployed)
  = surplus deployed.
Proof.
  assert (Hc : WithdrawRewardPool 5 <> EmergencyWithdraw) by discriminate.
  split; [exact Hc|].
  exact (surplus_is_kept deployer (WithdrawRewardPool 5) deployed Hc).
Defined.

Lemma owner_stays_nonzero_witness :
  owner (c_storage deployed) <> 0 /\
  transact deployer (TransferOwnership 0) deployed
  = Reverted (Revert "Invalid new owner address") /\
  owner (c_storage (state_after deployer (TransferOwnership 0) deployed)) <> 0.
Proof.
  assert (Hnz : owner (c_storage deployed) <> 0) by discriminate.
  split; [exact Hnz|]. split; [reflexivity|].
  exact (owner_stays_nonzero deployer (TransferOwnership 0) deployed Hnz).
Defined.

End PoolExamples.

(** ** The view functions *)

Section Views.

Context {fhevm : FHE.runtime}.

(** X11. In a state of the deployed contract, [canCheckIn(user)] never
    fails and answers exactly whether a [checkIn] sent by [user] in the
    same block would succeed. *)
Theorem canCheckIn_agrees (e : env) (w : contract) :
  reachable w -> wf_env e ->
  (view (canCheckIn e (msg_sender e)) w = Ok true
   /\ succeeds (transact e CheckIn w))
  \/ (view (canCheckIn e (msg_sender e)) w = Ok false
      /\ transact e CheckIn w = Reverted (Revert "Already checked in today")).
Proof.
  intros Hw [_ Hts].
  pose proof (reachable_times w Hw (msg_sender e)) as Hlast.
  unfold view. run.
  branches; constants; try lia;
    first [ left; split; [reflexivity|exact I]
          | right; split; reflexivity ].
Qed.

(** X12. In a state of the deployed contract, [getNextCheckInTime(user)]
    never fails.  For a user with a stored check-in it is
    [lastCheckInTime + 24 hours], the first block time at which [checkIn]
    succeeds; for a user with none it is the current block time, and
    [checkIn] does succeed then provided the block time is 86400 or
    more. *)
Theorem getNextCheckInTime_agrees (e : env) (w : contract) :
  reachable w -> wf_env e ->
  exists next,
    view (getNextCheckInTime e (msg_sender e)) w = Ok next
    /\ (lastCheckInTime (user_of (c_storage w) (msg_sender e)) <> 0 ->
        next = lastCheckInTime (user_of (c_storage w) (msg_sender e))
               + CHECK_IN_INTERVAL
        /\ (succeeds (transact e CheckIn w) <-> next <= block_timestamp e))
    /\ (lastCheckInTime (user_of (c_storage w) (msg_sender e)) = 0 ->
        next = block_timestamp e
        /\ (succeeds (transact e CheckIn w)
            <-> CHECK_IN_INTERVAL <= block_timestamp e)).
Proof.
  intros Hw [_ Hts].
  pose proof (reachable_times w Hw (msg_sender e)) as Hlast.
  unfold view. run.
  branches; constants; try lia; eexists; (split; [reflexivity|]);
    split; intros Hcase; try lia; simpl; repeat split;
    intros; try exact I; try contradiction; lia.
Qed.

End Views.

Section ViewsExamples.

#[local] Existing Instance FHE.mock.

Lemma canCheckIn_agrees_witness :
  reachable checked_in /\ wf_env (alice 3600) /\
  view (canCheckIn (alice 3600) 7) checked_in = Ok false /\
  transact (alice 3600) CheckIn checked_in
  = Reverted (Revert "Already checked in today").
Proof.
  assert (Hwf : wf_env (alice 3600)) by (apply alice_wf; lia).
  split; [exact checked_in_reachable|]. split; [exact Hwf|].
  destruct (canCheckIn_agrees (alice 3600) checked_in
              checked_in_reachable Hwf) as [[Hyes _]|Hno].
  - vm_compute in Hyes. discriminate Hyes.
  - exact Hno.
Defined.

Lemma getNextCheckInTime_agrees_witness :
  reachable checked_in /\ wf_env (alice 3600) /\
  exists next,
    view (getNextCheckInTime (alice 3600) 7) checked_in = Ok next
    /\ next = 1700086400.
Proof.
  assert (Hwf : wf_env (alice 3600)) by (apply alice_wf; lia).
  split; [exact checked_in_reachable|]. split; [exact Hwf|].
  destruct (getNextCheckInTime_agrees (alice 3600) checked_in
              checked_in_reachable Hwf) as [next [Hview _]].
  exists next. split; [exact Hview|].
  vm_compute in Hview. injection Hview as <-. reflexivity.
Defined.

End ViewsExamples.

(** ** Check-ins in sequence *)

Section Streaks.

Context {fhevm : FHE.runtime}.

(** X13. [checkIn] writes the caller's struct and nothing else: every other
    user, the owner, the pool and the balance are as before, and no ether
    leaves the contract. *)
Theorem checkIn_frame (e : env) (w : contract) :
  (forall a, a <> msg_sender e ->
     user_of (c_storage (state_after e CheckIn w)) a = user_of (c_storage w) a)
  /\ owner (c_storage (state_after e CheckIn w)) = owner (c_storage w)
  /\ rewardPool (c_storage (state_after e CheckIn w))
     = rewardPool (c_storage w)
  /\ c_balance (state_after e CheckIn w) = c_balance w
  /\ (forall w' tr to amount,
        transact e CheckIn w = Success w' tr -> ~ In (Transfer to amount) tr).
Proof.
  run. branches; repeat split; try reflexivity; try lia;
    try (intros a Hne; users; reflexivity);
    intros w' tr to amount Hrun; try discriminate Hrun;
    inversion Hrun; subst; clear Hrun; simpl; intros Hin;
    repeat (destruct Hin as [Hin|Hin]; [discriminate Hin|]); exact Hin.
Qed.


Lemma last_of_cons (l : list Z) (x d : Z) :
  List.last (x :: l) d = List.last l x.
Proof.
  revert x d. induction l as [|y l IH]; intros x d; [reflexivity|].
  change (List.last (x :: y :: l) d) with (List.last (y :: l) d).
  rewrite (IH y d). symmetry. apply IH.
Qed.

(** One check-in inside the window of 24 to 48 hours. *)
Lemma checkIn_in_window (a : address) (t : Z) (w : contract) :
  0 <= lastCheckInTime (user_of (c_storage w) a) < 2 ^ 64 ->
  keeps_streak (lastCheckInTime (user_of (c_storage w) a)) [t] ->
  exists w' tr,
    transact (sent_by a t) CheckIn w = Success w' tr
    /\ user_of (c_storage w') a
       = with_lastCheckInTime t
           (with_encryptedDays
              (FHE.add (encryptedDays (user_of (c_storage w) a))
                       (FHE.asEuint32 1))
              (user_of (c_storage w) a)).
Proof.
  intros Hlast [Hwin _]. run.
  branches; constants; try lia; eexists; eexists;
    (split; [reflexivity|]); simpl; users; reflexivity.
Qed.

(** X15. Check-ins that keep the streak alive all succeed and count: when
    each block time is at least 24 and at most 48 hours after the
    previous check-in, the calls succeed one after the other, the counter
    ends at its old value plus the number of check-ins (in 32-bit
    arithmetic), [lastClaimedDay] is not reset and [lastCheckInTime] is the
    last block time. *)
Theorem streak_counts (a : address) (t : Z) (rest : list Z) (w : contract) :
  0 <= lastCheckInTime (user_of (c_storage w) a) ->
  Forall (fun t' => t' < 2 ^ 64) (t :: rest) ->
  keeps_streak (lastCheckInTime (user_of (c_storage w) a)) (t :: rest) ->
  exists w',
    transact_all (checkIns a (t :: rest)) w = Some w'
    /\ FHE.cleartext (encryptedDays (user_of (c_storage w') a))
       = (FHE.cleartext (encryptedDays (user_of (c_storage w) a))
          + Z.of_nat (length (t :: rest))) mod 2 ^ 32
    /\ lastClaimedDay (user_of (c_storage w') a)
       = lastClaimedDay (user_of (c_storage w) a)
    /\ lastCheckInTime (user_of (c_storage w') a) = List.last rest t.
Proof.
  revert t w. induction rest as [|t2 rest IH]; intros t w Hlast Hbound Hkeep.
  - pose proof (Forall_inv Hbound) as Ht. cbv beta in Ht. destruct Hkeep as [Hwin _].
    destruct (checkIn_in_window a t w) as (w' & tr & Hrun & Huser).
    { unfold CHECK_IN_INTERVAL in Hwin. lia. }
    { split; [exact Hwin|exact I]. }
    exists w'. simpl. rewrite Hrun. split; [reflexivity|].
    rewrite Huser. simpl. rewrite FHE.cleartext_add.
    rewrite FHE.cleartext_asEuint32 by lia. repeat split.
  - pose proof (Forall_inv Hbound) as Ht. cbv beta in Ht.
    pose proof (Forall_inv_tail Hbound) as Hbound'.
    destruct Hkeep as [Hwin Hkeep].
    destruct (checkIn_in_window a t w) as (w1 & tr & Hrun & Huser).
    { unfold CHECK_IN_INTERVAL in Hwin. lia. }
    { split; [exact Hwin|exact I]. }
    destruct (IH t2 w1) as (w' & Hall & Hdays & Hclaimed & Htime).
    { rewrite Huser. simpl. unfold CHECK_IN_INTERVAL in Hwin. lia. }
    { exact Hbound'. }
    { rewrite Huser. simpl. exact Hkeep. }
    exists w'. split.
    { change (checkIns a (t :: t2 :: rest))
        with ((sent_by a t, CheckIn) :: checkIns a (t2 :: rest)).
      simpl transact_all. rewrite Hrun. exact Hall. }
    rewrite Hdays, Hclaimed, Htime, Huser. simpl encryptedDays.
    simpl lastClaimedDay. rewrite FHE.cleartext_add.
    rewrite FHE.cleartext_asEuint32 by lia. repeat split.
    rewrite Zplus_mod_idemp_l. f_equal.
    { change (length (t :: t2 :: rest)) with (S (length (t2 :: rest))).
      lia. }
    symmetry. apply last_of_cons.
Qed.

(** One claim by an account that accepts ether, in a funded contract. *)
Lemma claim_step (a : address) (t day : Z) (w : contract) :
  day mod 2 = 1 ->
  lastClaimedDay (user_of (c_storage w) a) < day ->
  REWARD_AMOUNT <= rewardPool (c_storage w) <= c_balance w ->
  exists w' tr,
    transact (sent_by a t) (ClaimReward day) w = Success w' tr
    /\ user_of (c_storage w') a
       = with_lastClaimedDay day (user_of (c_storage w) a)
    /\ rewardPool (c_storage w') = rewardPool (c_storage w) - REWARD_AMOUNT
    /\ c_balance w' = c_balance w - REWARD_AMOUNT.
Proof.
  intros Hodd Hday Hpool. run.
  branches; constants; try lia; try discriminate;
    eexists; eexists; (split; [reflexivity|]); simpl; users;
    repeat split; lia.
Qed.

(** X16. Claims need no check-in: an account that accepts ether can claim
    [n] milestones in a row, [day], [day + 2], ..., in one block, as long
    as the pool covers them; each pays [REWARD_AMOUNT], and the account's
    [encryptedDays] and [lastCheckInTime] are never read or written. *)
Theorem claims_need_no_checkIn (a : address) (t day : Z) (n : nat)
    (w : contract) :
  day mod 2 = 1 ->
  lastClaimedDay (user_of (c_storage w) a) < day ->
  Z.of_nat n * REWARD_AMOUNT <= rewardPool (c_storage w) <= c_balance w ->
  exists w',
    transact_all (claims a t day n) w = Some w'
    /\ rewardPool (c_storage w')
       = rewardPool (c_storage w) - Z.of_nat n * REWARD_AMOUNT
    /\ c_balance w' = c_balance w - Z.of_nat n * REWARD_AMOUNT
    /\ encryptedDays (user_of (c_storage w') a)
       = encryptedDays (user_of (c_storage w) a)
    /\ lastCheckInTime (user_of (c_storage w') a)
       = lastCheckInTime (user_of (c_storage w) a).
Proof.
  revert day w. induction n as [|n IH]; intros day w Hodd Hday Hpool.
  - exists w. simpl. repeat split; lia.
  - destruct (claim_step a t day w Hodd Hday)
      as (w1 & tr & Hrun & Huser & Hp & Hb).
    { unfold REWARD_AMOUNT in *. lia. }
    destruct (IH (day + 2) w1) as (w' & Hall & Hp' & Hb' & Hd & Hl).
    { rewrite <- Hodd. replace (day + 2) with (day + 1 * 2) by lia.
      apply Z_mod_plus_full. }
    { rewrite Huser. simpl. lia. }
    { rewrite Hp, Hb. unfold REWARD_AMOUNT in *. lia. }
    exists w'. simpl transact_all. rewrite Hrun.
    split; [exact Hall|].
    rewrite Hp', Hb', Hd, Hl, Hp, Hb, Huser. simpl.
    repeat split; lia.
Qed.

End Streaks.

Section StreaksExamples.

#[local] Existing Instance FHE.mock.


Lemma streak_counts_witness :
  FHE.cleartext (encryptedDays (user_of (c_storage checked_in) 7)) = 1 /\
  exists w',
    transact_all (checkIns 7 [1700086400; 1700259200]) checked_in = Some w'
    /\ FHE.cleartext (encryptedDays (user_of (c_storage w') 7)) = 3.
Proof.
  split; [reflexivity|].
  destruct (streak_counts 7 1700086400 [1700259200] checked_in)
    as (w' & Hall & Hdays & _).
  - vm_compute. discriminate.
  - repeat constructor.
  - vm_compute. repeat split; discriminate.
  - exists w'. split; [exact Hall|]. rewrite Hdays. reflexivity.
Defined.

Lemma claims_need_no_checkIn_witness :
  userCheckIns (c_storage deployed) !! 9 = None /\
  exists w',
    transact_all (claims 9 1700000000 1 3) deployed = Some w'
    /\ rewardPool (c_storage w') = one_ether - 3 * REWARD_AMOUNT
    /\ lastCheckInTime (user_of (c_storage w') 9) = 0.
Proof.
  split; [reflexivity|].
  destruct (claims_need_no_checkIn 9 1700000000 1 3 deployed)
    as (w' & Hall & Hpool & _ & _ & Htime).
  - reflexivity.
  - vm_compute. reflexivity.
  - vm_compute. split; discriminate.
  - exists w'. split; [exact Hall|]. split; [exact Hpool|exact Htime].
Defined.

End StreaksExamples.

(** ** Invariants of the stored data, and handing the contract over *)

Section Administration.

Context {fhevm : FHE.runtime}.

(** X17. In every state of the deployed contract, each user's
    [lastClaimedDay] is 0 or an odd number. *)
Theorem lastClaimedDay_is_odd (w : contract) :
  reachable w ->
  forall a,
    lastClaimedDay (user_of (c_storage w) a) = 0
    \/ lastClaimedDay (user_of (c_storage w) a) mod 2 = 1.
Proof.
  induction 1 as [e value held w tr He Hv Hh Hd|e c w Hw IH He Hc|w v Hw IH Hv];
    intros a.
  - run. inversion Hd; subst; clear Hd. simpl.
    rewrite user_of_set_rewardPool, user_of_set_owner, user_of_empty.
    left. reflexivity.
  - pose proof (IH a) as Ha. pose proof (IH (msg_sender e)) as Hs.
    destruct (decide (msg_sender e = a)) as [<-|Hne];
      destruct c as [| | | | | | | | |[]]; run; branches;
      constants; auto.
  - exact (IH a).
Qed.

(** X18. [transferOwnership] hands the contract over: once the owner has
    transferred it to another address, the admin functions revert with
    "Only owner can call this" for the former owner, and the new owner can
    withdraw from the pool. *)
Theorem transferOwnership_hands_over (e : env) (newOwner : address)
    (w : contract) :
  msg_sender e = owner (c_storage w) ->
  newOwner <> 0 ->
  newOwner <> owner (c_storage w) ->
  (forall e' c,
      msg_sender e' = owner (c_storage w) ->
      is_admin c = true ->
      transact e' c (state_after e (TransferOwnership newOwner) w)
      = Reverted (Revert "Only owner can call this"))
  /\ (forall e' amount,
        msg_sender e' = newOwner ->
        recipient_accepts e' = true ->
        amount <= rewardPool (c_storage w) <= c_balance w ->
        succeeds
          (transact e' (WithdrawRewardPool amount)
             (state_after e (TransferOwnership newOwner) w))).
Proof.
  intros Howner Hnz Hnew. destruct e as [sender ts acc]. simpl in Howner.
  subst sender. split.
  - intros [sender' ts' acc'] c Hold Hadmin. simpl in Hold. subst sender'.
    destruct c; try discriminate Hadmin; run; branches;
      try reflexivity; congruence.
  - intros [sender' ts' acc'] amount Hsender Hacc Hpool. simpl in *.
    subst sender' acc'. run.
    branches; simpl; try exact I; try lia; try discriminate; congruence.
Qed.

(** X19. A deposit and a withdrawal of the same amount cancel: after
    [depositRewardPool] with value [v] and the owner's
    [withdrawRewardPool(v)], the contract (storage and balance) is what it
    was. *)
Theorem deposit_then_withdraw (e e' : env) (v : Z) (w : contract) :
  0 < v ->
  rewardPool (c_storage w) + v <= MAX_UINT256 ->
  0 <= rewardPool (c_storage w) ->
  0 <= c_balance w ->
  msg_sender e' = owner (c_storage w) ->
  recipient_accepts e' = true ->
  succeeds (transact e (DepositRewardPool v) w)
  /\ succeeds
       (transact e' (WithdrawRewardPool v)
          (state_after e (DepositRewardPool v) w))
  /\ state_after e' (WithdrawRewardPool v)
       (state_after e (DepositRewardPool v) w)
     = w.
Proof.
  intros Hv Hfit Hpool Hbal Howner Hacc. destruct e' as [sender' ts' acc'].
  simpl in *. subst sender' acc'. destruct w as [[o u p] b]. run.
  branches; try lia; try discriminate; try congruence.
  repeat split. unfold set_rewardPool. simpl. f_equal; [f_equal|]; lia.
Qed.


End Administration.

Section AdministrationExamples.

#[local] Existing Instance FHE.mock.

Lemma lastClaimedDay_is_odd_witness :
  reachable claimed1 /\
  lastClaimedDay (user_of (c_storage claimed1) 7) = 1 /\
  (lastClaimedDay (user_of (c_storage claimed1) 7) = 0
   \/ lastClaimedDay (user_of (c_storage claimed1) 7) mod 2 = 1).
Proof.
  split; [exact claimed1_reachable|]. split; [reflexivity|].
  exact (lastClaimedDay_is_odd claimed1 claimed1_reachable 7).
Defined.

Lemma transferOwnership_hands_over_witness :
  msg_sender deployer = owner (c_storage deployed) /\
  transact deployer EmergencyWithdraw
    (state_after deployer (TransferOwnership 7) deployed)
  = Reverted (Revert "Only owner can call this") /\
  succeeds
    (transact (alice 60) (WithdrawRewardPool one_ether)
       (state_after deployer (TransferOwnership 7) deployed)).
Proof.
  destruct (transferOwnership_hands_over deployer 7 deployed eq_refl)
    as [Hold Hnew]; try discriminate.
  split; [reflexivity|]. split.
  - apply Hold; reflexivity.
  - apply Hnew; try reflexivity. simpl. lia.
Defined.

Lemma deposit_then_withdraw_witness :
  0 < 5 /\
  c_balance (state_after (alice 0) (DepositRewardPool 5) deployed)
  = one_ether + 5 /\
  state_after deployer (WithdrawRewardPool 5)
    (state_after (alice 0) (DepositRewardPool 5) deployed)
  = deployed.
Proof.
  split; [lia|]. split; [reflexivity|].
  apply (deposit_then_withdraw (alice 0) deployer 5 deployed);
    try reflexivity; simpl; unfold MAX_UINT256, one_ether; lia.
Defined.


End AdministrationExamples.
